(** * auth-email-otp: the e-mail OTP authentication service

    A shallow embedding of [main.py] (the FastAPI endpoints and their
    helpers) and of the schema created by [sqllite3.py], followed by the
    properties of the authentication state machine.

    Conventions of the embedding.
    - The SQLite file [auth.db] is a value of type [database]: the table
      [users] is a finite map keyed by its primary key [email], the table
      [blacklisted_tokens] a finite set of its only column [token].
    - Python exceptions are values of type [exn]; a computation either
      returns or raises ([outcome]).  Endpoint bodies run in a state and
      exception monad [SE]; the block [with get_db_connection() as conn]
      runs a computation over a [connection] (committed and working
      copy) and leaves the committed copy behind when the connection is
      closed.
    - Readings of the clock ([time.time()], [datetime.utcnow()], the clock
      PyJWT consults), the draws of [random.choice] and the outcome of the
      SMTP delivery are inputs of the operations.  Instants and durations
      are rational numbers of seconds.
    - PyJWT is an external library: its two entry points are the fields of
      the class [PyJWT], together with the part of its contract that the
      service relies on. *)

From Stdlib Require Import Ascii QArith Qround Lqa.
From stdpp Require Import gmap strings list fin_maps countable.

Open Scope string_scope.

(** ** Python values, exceptions and outcomes *)

(** The Python values that occur in token payloads and responses. *)
Inductive pyval :=
| PyNone
| PyStr (s : string)
| PyInt (z : Z)
| PyDatetime (t : Q).

(** The subclasses of [jwt.PyJWTError] raised by [jwt.decode]. *)
Inductive pyjwt_error :=
| DecodeError
| InvalidSignatureError
| ExpiredSignatureError
| InvalidAlgorithmError.

Inductive exn :=
| HTTPException (status_code : Z) (detail : string)
| TypeError (msg : string)
| IntegrityError (msg : string)
| PyJWTError (e : pyjwt_error)
| SMTPException (msg : string).

Inductive outcome (A : Type) :=
| Return (a : A)
| Raise (e : exn).
Arguments Return {A} a.
Arguments Raise {A} e.

(** State and exception monad: an exception keeps the state reached so far. *)
Definition SE (S A : Type) : Type := S -> outcome A * S.

Definition ret {S A} (a : A) : SE S A := fun s => (Return a, s).

Definition raise {S A} (e : exn) : SE S A := fun s => (Raise e, s).

Definition bind {S A B} (m : SE S A) (k : A -> SE S B) : SE S B :=
  fun s =>
    match m s with
    | (Return a, s') => k a s'
    | (Raise e, s') => (Raise e, s')
    end.

Notation "x <- m ;; k" := (bind m (fun x => k))
  (at level 100, m at next level, right associativity).
Notation "m ;;; k" := (bind m (fun _ => k))
  (at level 100, right associativity).

(** [try: body except ...: handler]: [handler e] is [Some h] when an
    except clause matches [e], and [None] when [e] propagates. *)
Definition try_except {S A} (body : SE S A) (handler : exn -> option (SE S A))
  : SE S A :=
  fun s =>
    match body s with
    | (Return a, s') => (Return a, s')
    | (Raise e, s') =>
        match handler e with
        | Some h => h s'
        | None => (Raise e, s')
        end
    end.

(** A computation without effect on the state, e.g. a library call. *)
Definition lift {S A} (o : outcome A) : SE S A := fun s => (o, s).

(** ** The database of [sqllite3.py] *)

(** A row of [users] without its key: [otp TEXT], [timestamp REAL], both
    nullable. *)
Record user_row := { otp : option string; timestamp : option Q }.

Record database := {
  users : gmap string user_row;
  blacklisted_tokens : gset string
}.

(** An open [sqlite3] connection: statements change the working copy,
    [conn.commit()] publishes it, [conn.close()] drops what was not
    committed. *)
Record connection := { committed : database; working : database }.

Definition get_db_connection {A} (body : SE connection A) : SE database A :=
  fun db =>
    let '(r, conn) := body {| committed := db; working := db |} in
    (r, committed conn).

Definition commit : SE connection unit :=
  fun conn => (Return tt, {| committed := working conn; working := working conn |}).

Definition set_users (f : gmap string user_row -> gmap string user_row)
  : SE connection unit :=
  fun conn =>
    (Return tt,
     {| committed := committed conn;
        working := {| users := f (users (working conn));
                      blacklisted_tokens := blacklisted_tokens (working conn) |} |}).

(** [SELECT email FROM users WHERE email = ?] followed by [fetchone()]. *)
Definition select_email (email : string) : SE connection (option string) :=
  fun conn =>
    (Return (match users (working conn) !! email with
             | Some _ => Some email
             | None => None
             end), conn).

(** [SELECT otp, timestamp FROM users WHERE email = ?] and [fetchone()]. *)
Definition select_otp_timestamp (email : string)
  : SE connection (option (option string * option Q)) :=
  fun conn =>
    (Return (match users (working conn) !! email with
             | Some r => Some (otp r, timestamp r)
             | None => None
             end), conn).

(** [INSERT INTO users (email, otp, timestamp) VALUES (?, ?, ?)]: the
    primary key rejects a second row with the same email. *)
Definition insert_user (email : string) (o : option string) (t : option Q)
  : SE connection unit :=
  fun conn =>
    match users (working conn) !! email with
    | Some _ => (Raise (IntegrityError "UNIQUE constraint failed: users.email"), conn)
    | None => set_users (insert email {| otp := o; timestamp := t |}) conn
    end.

(** [UPDATE users SET otp = ?, timestamp = ? WHERE email = ?]: no row, no
    change. *)
Definition update_user (email : string) (o : option string) (t : option Q)
  : SE connection unit :=
  set_users (alter (fun _ => {| otp := o; timestamp := t |}) email).

(** [SELECT token FROM blacklisted_tokens WHERE token = ?] and [fetchone()]. *)
Definition select_token (token : string) : SE connection (option string) :=
  fun conn =>
    (Return (if decide (token ∈ blacklisted_tokens (working conn))
             then Some token else None), conn).

(** [INSERT INTO blacklisted_tokens (token) VALUES (?)]: [token] is the
    primary key of the table. *)
Definition insert_token (token : string) : SE connection unit :=
  fun conn =>
    if decide (token ∈ blacklisted_tokens (working conn))
    then (Raise (IntegrityError "UNIQUE constraint failed: blacklisted_tokens.token"), conn)
    else (Return tt,
          {| committed := committed conn;
             working := {| users := users (working conn);
                           blacklisted_tokens :=
                             {[ token ]} ∪ blacklisted_tokens (working conn) |} |}).

(** ** Constants and helpers of [main.py] *)

Definition ALGORITHM : string := "HS256".
Definition ACCESS_TOKEN_EXPIRE_MINUTES : Z := 30.

(** [timedelta(minutes=m)], in seconds. *)
Definition timedelta_minutes (m : Z) : Q := inject_Z (m * 60).

(** The body of a JSON response: a Python dict literal. *)
Definition response := list (string * pyval).

(** [a > b] on the clock readings. *)
Definition Qgtb (a b : Q) : bool := negb (Qle_bool a b).

Definition digits : string := "0123456789".

(** [random.choice(seq)] for the draw [r] of the generator: the element
    at index [r mod len(seq)]. *)
Definition random_choice (r : nat) (seq : string) : Ascii.ascii :=
  match String.get (r mod String.length seq) seq with
  | Some c => c
  | None => "0"%char
  end.

(** [generate_otp(length)]: [draws i] is the [i]-th draw of the module
    level generator of [random]. *)
Definition generate_otp (draws : nat -> nat) (length : nat) : string :=
  String.string_of_list_ascii
    (List.map (fun i => random_choice (draws i) digits) (List.seq 0 length)).

(** [payload.get(key)]. *)
Definition dict_get (payload : gmap string pyval) (key : string) : pyval :=
  match payload !! key with
  | Some v => v
  | None => PyNone
  end.

(** ** PyJWT *)

(** [timegm(d.utctimetuple())]: the whole seconds of a datetime, which is
    how [jwt.encode] stores a datetime given as a time claim. *)
Definition numeric_date (d : Q) : Z := Qfloor d.

(** The claims [create_access_token] signs for [verify_otp]. *)
Definition access_claims (sub : string) (expire : Q) : gmap string pyval :=
  <["exp" := PyDatetime expire]> {["sub" := PyStr sub]}.

(** [jwt.encode(payload, key, algorithm)] and
    [jwt.decode(token, key, algorithms)], the latter with the reading
    [now] of the clock the library takes.  The contract: a payload made
    of a subject string and an expiry datetime is encoded, and the token
    decodes under the same key and algorithm, strictly before the whole
    second of its expiry, to the same subject and the expiry as a
    number. *)
Class PyJWT := {
  jwt_encode : gmap string pyval -> string -> string -> outcome string;
  jwt_decode : string -> string -> list string -> Q ->
               pyjwt_error + gmap string pyval;
  jwt_encode_returns : forall sub expire key,
    exists token, jwt_encode (access_claims sub expire) key "HS256" = Return token;
  jwt_decode_encode : forall sub expire key token now,
    jwt_encode (access_claims sub expire) key "HS256" = Return token ->
    (now < inject_Z (numeric_date expire))%Q ->
    jwt_decode token key ["HS256"] now =
      inr (<["exp" := PyInt (numeric_date expire)]> {["sub" := PyStr sub]})
}.

(** ** The service *)

Section Service.

Context {J : PyJWT}.

(** [os.getenv("SECRET_KEY", "your_secret_key")]. *)
Variable SECRET_KEY : string.

(** [send_email(to_email, otp)]: the SMTP delivery, which returns or
    raises. *)
Variable send_email : string -> string -> outcome unit.

(** The local variable [expire] of [create_access_token]: a timedelta is
    false when it is zero. *)
Definition token_expire (utcnow : Q) (expires_delta : option Q) : Q :=
  match expires_delta with
  | Some d =>
      if negb (Qeq_bool d 0) then (utcnow + d)%Q
      else (utcnow + timedelta_minutes ACCESS_TOKEN_EXPIRE_MINUTES)%Q
  | None => (utcnow + timedelta_minutes ACCESS_TOKEN_EXPIRE_MINUTES)%Q
  end.

Definition create_access_token (utcnow : Q) (data : gmap string pyval)
    (expires_delta : option Q) : outcome string :=
  let to_encode := data in
  let expire := token_expire utcnow expires_delta in
  let to_encode := <["exp" := PyDatetime expire]> to_encode in
  jwt_encode to_encode SECRET_KEY ALGORITHM.

Definition verify_token {S} (now : Q) (token : string) : SE S pyval :=
  try_except
    (payload <- lift (match jwt_decode token SECRET_KEY [ALGORITHM] now with
                      | inr payload => Return payload
                      | inl e => Raise (PyJWTError e)
                      end) ;;
     let email := dict_get payload "sub" in
     match email with
     | PyNone => raise (HTTPException 401 "Invalid token")
     | _ => ret email
     end)
    (fun e =>
       match e with
       | PyJWTError _ => Some (raise (HTTPException 401 "Invalid token"))
       | _ => None
       end).

Definition is_token_blacklisted (token : string) : SE database bool :=
  blacklisted_token <- get_db_connection (select_token token) ;;
  ret (match blacklisted_token with Some _ => true | None => false end).

Definition register_user (email : string) : SE database response :=
  get_db_connection
    (user <- select_email email ;;
     match user with
     | Some _ => raise (HTTPException 400 "Email already registered")
     | None => insert_user email None None ;;; commit
     end) ;;;
  ret [("message", PyStr "User registered successfully")].

Definition send_otp (draws : nat -> nat) (time_time : Q) (email : string)
  : SE database response :=
  otp <- get_db_connection
    (user <- select_email email ;;
     match user with
     | None => raise (HTTPException 400 "Email not allowed")
     | Some _ =>
         let otp := generate_otp draws 6 in
         let timestamp := time_time in
         update_user email (Some otp) (Some timestamp) ;;;
         commit ;;;
         ret otp
     end) ;;
  try_except (lift (send_email email otp))
    (fun e => Some (raise (HTTPException 500 "Failed to send email"))) ;;;
  ret [("message", PyStr "OTP sent")].

Definition verify_otp (time_time utcnow : Q) (email otp : string)
  : SE database response :=
  let current_time := time_time in
  get_db_connection
    (result <- select_otp_timestamp email ;;
     match result with
     | None => raise (HTTPException 404 "OTP not found")
     | Some (stored_otp, timestamp) =>
         elapsed <- match timestamp with
                    | Some t => ret (current_time - t)%Q
                    | None =>
                        raise (TypeError
                          "unsupported operand type(s) for -: 'float' and 'NoneType'")
                    end ;;
         if Qgtb elapsed 180 then
           update_user email None None ;;;
           commit ;;;
           raise (HTTPException 400 "OTP expired")
         else if bool_decide (stored_otp ≠ Some otp) then
           raise (HTTPException 400 "Invalid OTP")
         else
           update_user email None None ;;;
           commit
     end) ;;;
  let access_token_expires := timedelta_minutes ACCESS_TOKEN_EXPIRE_MINUTES in
  access_token <- lift (create_access_token utcnow {["sub" := PyStr email]}
                          (Some access_token_expires)) ;;
  ret [("access_token", PyStr access_token); ("token_type", PyStr "bearer")].

Definition token_check (now : Q) (token : string) : SE database response :=
  blacklisted <- is_token_blacklisted token ;;
  if (blacklisted : bool) then raise (HTTPException 401 "Token has been revoked")
  else
    email <- verify_token now token ;;
    ret [("message", PyStr "Token is valid"); ("email", email)].

Definition logout (token : string) : SE database response :=
  get_db_connection (insert_token token ;;; commit) ;;;
  ret [("message", PyStr "Successfully logged out")].

End Service.

(** ** A reference codec

    An implementation of the class [PyJWT] in which the signature is
    ideal: a token is an injective encoding of the JSON claims, the
    signing key and the algorithm, and the signature check compares the
    keys.  It shows that the contract is satisfiable and gives the
    examples something to run on. *)

#[global] Instance Q_eq_dec : EqDecision Q.
Proof. solve_decision. Defined.

#[global] Instance Q_countable : Countable Q :=
  inj_countable' (fun q => (Qnum q, Qden q)) (fun p => Qmake p.1 p.2)
    (fun q => match q with Qmake _ _ => eq_refl end).

#[global] Instance pyval_eq_dec : EqDecision pyval.
Proof. solve_decision. Defined.

#[global] Instance pyval_countable : Countable pyval :=
  inj_countable'
    (fun v => match v with
              | PyNone => inl tt
              | PyStr s => inr (inl s)
              | PyInt z => inr (inr (inl z))
              | PyDatetime t => inr (inr (inr t))
              end)
    (fun x => match x with
              | inl _ => PyNone
              | inr (inl s) => PyStr s
              | inr (inr (inl z)) => PyInt z
              | inr (inr (inr t)) => PyDatetime t
              end)
    (fun v => match v with
              | PyNone => eq_refl
              | PyStr _ => eq_refl
              | PyInt _ => eq_refl
              | PyDatetime _ => eq_refl
              end).

Module RefCodec.

(** The text of a positive number, in binary and least significant bit
    first. *)
Fixpoint text_of_pos (p : positive) : string :=
  match p with
  | xH => ""
  | xO p => String "0"%char (text_of_pos p)
  | xI p => String "1"%char (text_of_pos p)
  end.

Fixpoint pos_of_text (s : string) : option positive :=
  match s with
  | "" => Some xH
  | String c s =>
      if decide (c = "0"%char) then xO <$> pos_of_text s
      else if decide (c = "1"%char) then xI <$> pos_of_text s
      else None
  end.

Definition time_claims : list string := ["exp"; "iat"; "nbf"].

(** A datetime under a time claim is stored as its whole seconds. *)
Definition to_json (claims : gmap string pyval) : gmap string pyval :=
  map_imap (fun k v =>
              Some (match v with
                    | PyDatetime d =>
                        if bool_decide (k ∈ time_claims)
                        then PyInt (numeric_date d) else v
                    | _ => v
                    end)) claims.

Definition encode (payload : gmap string pyval) (key algorithm : string)
  : outcome string :=
  Return (text_of_pos (countable.encode (to_json payload, key, algorithm))).

Definition decode (token key : string) (algorithms : list string) (now : Q)
  : pyjwt_error + gmap string pyval :=
  match pos_of_text token ≫= countable.decode with
  | None => inl DecodeError
  | Some (payload, signing_key, algorithm) =>
      if bool_decide (algorithm ∉ algorithms) then inl InvalidAlgorithmError
      else if bool_decide (signing_key ≠ key) then inl InvalidSignatureError
      else match payload !! "exp" with
           | Some (PyInt e) =>
               if Qle_bool (inject_Z e) now then inl ExpiredSignatureError
               else inr payload
           | Some _ => inl DecodeError
           | None => inr payload
           end
  end.

End RefCodec.

(** The reference codec meets the contract. *)
Definition ref_codec : PyJWT.
Proof.
  refine {| jwt_encode := RefCodec.encode; jwt_decode := RefCodec.decode;
            jwt_encode_returns := _; jwt_decode_encode := _ |}.
  - intros sub expire key. eexists. reflexivity.
  - intros sub expire key token now Henc Hnow.
    assert (forall p, RefCodec.pos_of_text (RefCodec.text_of_pos p) = Some p)
      as Htext.
    { induction p as [p IH | p IH |];
        cbn [RefCodec.text_of_pos RefCodec.pos_of_text]; [| | reflexivity].
      - rewrite decide_False by (intros [=]).
        rewrite decide_True by reflexivity.
        rewrite IH. reflexivity.
      - rewrite decide_True by reflexivity. rewrite IH. reflexivity. }
    assert (RefCodec.to_json (access_claims sub expire) =
            <["exp" := PyInt (numeric_date expire)]> {["sub" := PyStr sub]})
      as Hjson.
    { apply map_eq. intros k. unfold RefCodec.to_json, access_claims.
      rewrite map_lookup_imap.
      destruct (decide ("exp" = k)) as [<- | Hexp].
      - rewrite !lookup_insert_eq. reflexivity.
      - rewrite !lookup_insert_ne by assumption.
        destruct (decide ("sub" = k)) as [<- | Hsub].
        + rewrite lookup_singleton_eq. reflexivity.
        + rewrite lookup_singleton_ne by assumption. reflexivity. }
    unfold RefCodec.encode in Henc. unfold RefCodec.decode.
    assert (token = RefCodec.text_of_pos
              (encode (RefCodec.to_json (access_claims sub expire), key, "HS256")))
      as -> by congruence.
    clear Henc. rewrite Htext. cbn [mbind option_bind]. rewrite decode_encode.
    rewrite Hjson.
    rewrite bool_decide_eq_false_2 by (intros Hn; apply Hn; constructor).
    rewrite bool_decide_eq_false_2 by (intros Hn; apply Hn; reflexivity).
    rewrite lookup_insert_eq.
    destruct (Qle_bool (inject_Z (numeric_date expire)) now) eqn:Hle;
      [| reflexivity].
    apply Qle_bool_iff in Hle. exfalso. revert Hle. apply Qlt_not_le, Hnow.
Defined.

(** ** Names used in the statements *)

(** The row of a registered identity without pending challenge. *)
Definition no_challenge : user_row := {| otp := None; timestamp := None |}.

(** The row of an identity whose challenge [code] was issued at [t]. *)
Definition pending (code : string) (t : Q) : user_row :=
  {| otp := Some code; timestamp := Some t |}.

Definition with_users (db : database) (u : gmap string user_row) : database :=
  {| users := u; blacklisted_tokens := blacklisted_tokens db |}.

Definition with_blacklist (db : database) (b : gset string) : database :=
  {| users := users db; blacklisted_tokens := b |}.

Definition TypeError_float_None : exn :=
  TypeError "unsupported operand type(s) for -: 'float' and 'NoneType'".

Definition bearer (token : string) : response :=
  [("access_token", PyStr token); ("token_type", PyStr "bearer")].

(** The exception of [verify_token]. *)
Definition Invalid_token : exn := HTTPException 401 "Invalid token".

(** The exception of a second [INSERT] of a token. *)
Definition token_not_unique : exn :=
  IntegrityError "UNIQUE constraint failed: blacklisted_tokens.token".

(** ** Concrete runs

    The runs use the reference codec, the default secret key, and a
    database with the single identity [alice]. *)

Definition alice : string := "a@x.com".
Definition default_key : string := "your_secret_key".

Definition db_registered : database :=
  {| users := {[ alice := no_challenge ]}; blacklisted_tokens := ∅ |}.

(** A challenge "123456" issued at instant 1000. *)
Definition db_pending : database :=
  {| users := {[ alice := pending "123456" 1000 ]}; blacklisted_tokens := ∅ |}.

(** A token for [alice] signed under a key that is not the service's. *)
Definition forged_token : string :=
  RefCodec.text_of_pos
    (encode (RefCodec.to_json (access_claims alice 5000), "another_key", "HS256")).

(** A token signed under the service's key whose payload is empty. *)
Definition anonymous_token : string :=
  RefCodec.text_of_pos
    (encode (RefCodec.to_json ∅, default_key, "HS256")).

Definition db_revoked : database :=
  {| users := ∅; blacklisted_tokens := {[ forged_token ]} |}.

Definition db_empty : database := {| users := ∅; blacklisted_tokens := ∅ |}.

(** An SMTP server that cannot be reached. *)
Definition smtp_down (to_email otp : string) : outcome unit :=
  Raise (SMTPException "Connection refused").

(** ** The routes of [app] *)

(** A request, with the readings and draws its handler takes from the
    process: the clock, the generator of [random] and, for [/send-otp],
    what [send_email] does. *)
Inductive request :=
| POST_register (email : string)
| POST_send_otp (delivery : outcome unit) (draws : nat -> nat) (time_time : Q)
    (email : string)
| POST_verify_otp (time_time utcnow : Q) (email otp : string)
| GET_token_check (now : Q) (token : string)
| POST_logout (token : string).

Section App.

Context {J : PyJWT}.
Variable SECRET_KEY : string.

Definition app (req : request) : SE database response :=
  match req with
  | POST_register email => register_user email
  | POST_send_otp delivery draws time_time email =>
      send_otp (fun _ _ => delivery) draws time_time email
  | POST_verify_otp time_time utcnow email otp =>
      verify_otp SECRET_KEY time_time utcnow email otp
  | GET_token_check now token => token_check SECRET_KEY now token
  | POST_logout token => logout token
  end.

(** The database after a sequence of requests, served one after the
    other; a request that raises leaves what it committed. *)
Fixpoint serve (reqs : list request) (db : database) : database :=
  match reqs with
  | [] => db
  | req :: reqs => serve reqs (app req db).2
  end.

(** The five paths of [verify_otp]. *)
Inductive verify_otp_path (db : database) (email code : string) (now utcnow : Q)
  : outcome response * database -> Prop :=
| path_not_found :
    users db !! email = None ->
    verify_otp_path db email code now utcnow
      (Raise (HTTPException 404 "OTP not found"), db)
| path_type_error r :
    users db !! email = Some r -> timestamp r = None ->
    verify_otp_path db email code now utcnow (Raise TypeError_float_None, db)
| path_expired r t :
    users db !! email = Some r -> timestamp r = Some t -> (t + 180 < now)%Q ->
    verify_otp_path db email code now utcnow
      (Raise (HTTPException 400 "OTP expired"),
       with_users db (<[email := no_challenge]> (users db)))
| path_invalid r t :
    users db !! email = Some r -> timestamp r = Some t -> (now <= t + 180)%Q ->
    otp r <> Some code ->
    verify_otp_path db email code now utcnow
      (Raise (HTTPException 400 "Invalid OTP"), db)
| path_redeem t :
    users db !! email = Some (pending code t) -> (now <= t + 180)%Q ->
    verify_otp_path db email code now utcnow
      (match jwt_encode (access_claims email (utcnow + timedelta_minutes 30))
               SECRET_KEY "HS256" with
       | Return token => Return (bearer token)
       | Raise e => Raise e
       end,
       with_users db (<[email := no_challenge]> (users db))).

End App.

(** A string of decimal digits. *)
Definition is_digit (c : Ascii.ascii) : bool :=
  existsb (Ascii.eqb c) (String.list_ascii_of_string digits).

Definition all_digits (s : string) : bool :=
  forallb is_digit (String.list_ascii_of_string s).

(** The rows the service writes: no challenge, or a code of six digits
    with its timestamp. *)
Definition row_ok (r : user_row) : Prop :=
  r = no_challenge \/
  exists code t, r = pending code t /\ String.length code = 6
                 /\ all_digits code = true.

Definition rows_ok (db : database) : Prop :=
  forall email r, users db !! email = Some r -> row_ok r.

(** ** [smtp_connection] and [send_email] *)

Module Smtp.

(** What reaches the caller of [send_email]: an exception of the
    libraries, or the UnboundLocalError of a local variable read before
    its assignment. *)
Inductive raised :=
| Exc (e : exn)
| UnboundLocalError (name : string).

(** The calls made on [smtplib]. *)
Inductive call :=
| Call_SMTP (host port : option string)
| Call_starttls
| Call_login (user password : option string)
| Call_sendmail (from_addr : option string) (to_addr msg : string)
| Call_quit.

(** The message built by [send_email]: its headers and the parts
    attached, each a text with its subtype. *)
Record message := {
  From : option string;
  To : string;
  Subject : string;
  attached : list (string * string)
}.

(** The process environment and the answers of the libraries: [None] when
    a call returns, [Some e] when it raises [e].  [SMTP host port] stands
    for [smtplib.SMTP(host, int(port))], conversion of the port included. *)
Record world := {
  getenv : string -> option string;
  SMTP : option string -> option string -> option exn;
  starttls : option exn;
  login : option string -> option string -> option exn;
  sendmail : option string -> string -> string -> option exn;
  quit : option exn;
  as_string : message -> exn + string
}.

(** The local variable [server] (bound or not) and the calls made so far. *)
Record frame := { server : bool; calls : list call }.

(** A block of statements: [None] when it completes. *)
Definition block : Type := frame -> option raised * frame.

Definition seq (a b : block) : block :=
  fun f =>
    match a f with
    | (None, f') => b f'
    | (Some e, f') => (Some e, f')
    end.

(** [try: body finally: fin]: an exception of [fin] replaces the outcome
    of [body]. *)
Definition try_finally (body fin : block) : block :=
  fun f =>
    let '(r, f1) := body f in
    match fin f1 with
    | (None, f2) => (r, f2)
    | (Some e, f2) => (Some e, f2)
    end.

Definition log (c : call) (f : frame) : frame :=
  {| server := server f; calls := calls f ++ [c] |}.

(** [server = smtplib.SMTP(...)]: the variable is bound when the call
    returns. *)
Definition assign_server (c : call) (answer : option exn) : block :=
  fun f =>
    match answer with
    | Some e => (Some (Exc e), log c f)
    | None => (None, {| server := true; calls := calls f ++ [c] |})
    end.

(** [server.method(...)]. *)
Definition on_server (c : call) (answer : option exn) : block :=
  fun f =>
    if server f then
      (match answer with Some e => Some (Exc e) | None => None end, log c f)
    else (Some (UnboundLocalError "server"), f).

Section Run.

Variable w : world.

(** [with smtp_connection() as server: body]: the generator runs up to
    its [yield], the body of the [with] runs at the [yield], inside the
    [try], and the [finally] clause runs last. *)
Definition smtp_connection (body : block) : block :=
  try_finally
    (seq (assign_server
            (Call_SMTP (getenv w "EMAIL_HOST") (getenv w "EMAIL_PORT"))
            (SMTP w (getenv w "EMAIL_HOST") (getenv w "EMAIL_PORT")))
       (seq (on_server Call_starttls (starttls w))
          (seq (on_server
                  (Call_login (getenv w "EMAIL_HOST_USER")
                     (getenv w "EMAIL_HOST_PASSWORD"))
                  (login w (getenv w "EMAIL_HOST_USER")
                     (getenv w "EMAIL_HOST_PASSWORD")))
             body)))
    (on_server Call_quit (quit w)).

Definition send_email (to_email otp : string) : block :=
  let from_email := getenv w "EMAIL_FROM" in
  let body := "Your OTP code is " ++ otp in
  let msg := {| From := from_email; To := to_email;
                Subject := "Your OTP Code";
                attached := [(body, "plain")] |} in
  smtp_connection
    (fun f =>
       match as_string w msg with
       | inl e => (Some (Exc e), f)
       | inr text =>
           on_server (Call_sendmail from_email to_email text)
             (sendmail w from_email to_email text) f
       end).

End Run.

(** The frame in which a call of [send_email] starts. *)
Definition start : frame := {| server := false; calls := [] |}.

(** The message [send_email] hands to [as_string]. *)
Definition otp_message (w : world) (to_email otp : string) : message :=
  {| From := getenv w "EMAIL_FROM"; To := to_email;
     Subject := "Your OTP Code";
     attached := [("Your OTP code is " ++ otp, "plain")] |}.

End Smtp.

(** ** The schema script [sqllite3.py] *)




(** ** More concrete runs *)

(** The token [verify_otp] returns for [alice] when the clock reads 1180. *)
Definition alice_token : string :=
  RefCodec.text_of_pos
    (encode (RefCodec.to_json (access_claims alice (1180 + timedelta_minutes 30)),
             default_key, "HS256")).

Definition smtp_up (to_email otp : string) : outcome unit := Return tt.

Definition draws1 (i : nat) : nat := 3 * i + 14.
Definition draws2 (i : nat) : nat := i.

(** A morning of requests. *)
Definition some_requests : list request :=
  [POST_register alice;
   POST_send_otp (Return tt) draws1 1000 alice;
   POST_verify_otp 1100 1100 alice "000000";
   POST_verify_otp 1120 1120 alice "470369";
   POST_logout alice_token;
   GET_token_check 1200 alice_token].

Definition mail_env (name : string) : option string :=
  ({[ "EMAIL_HOST" := "smtp.x.com"; "EMAIL_PORT" := "587";
      "EMAIL_HOST_USER" := "otp"; "EMAIL_HOST_PASSWORD" := "secret";
      "EMAIL_FROM" := "otp@x.com" ]} : gmap string string) !! name.

Definition render (m : Smtp.message) : exn + string :=
  inr ("Subject: " ++ Smtp.Subject m).

(** A mail server that accepts everything. *)
Definition world_up : Smtp.world :=
  {| Smtp.getenv := mail_env;
     Smtp.SMTP := fun _ _ => None;
     Smtp.starttls := None;
     Smtp.login := fun _ _ => None;
     Smtp.sendmail := fun _ _ _ => None;
     Smtp.quit := None;
     Smtp.as_string := render |}.

(** A mail server that refuses the connection. *)
Definition world_down : Smtp.world :=
  {| Smtp.getenv := mail_env;
     Smtp.SMTP := fun _ _ => Some (SMTPException "Connection refused");
     Smtp.starttls := None;
     Smtp.login := fun _ _ => None;
     Smtp.sendmail := fun _ _ _ => None;
     Smtp.quit := None;
     Smtp.as_string := render |}.

(** ** Auxiliary facts *)

(** Unfolds one run of an endpoint down to the table operations. *)
Ltac run_endpoint :=
  unfold register_user, send_otp, verify_otp, token_check, logout,
    is_token_blacklisted, verify_token, get_db_connection, try_except,
    select_email, select_otp_timestamp, select_token, insert_user,
    insert_token, update_user, set_users, commit, bind, ret, raise, lift;
  cbv beta iota zeta delta [committed working users blacklisted_tokens otp timestamp].

Lemma Qgtb_true a b : Qgtb a b = true <-> (b < a)%Q.
Proof.
  unfold Qgtb. rewrite negb_true_iff, <- not_true_iff_false, Qle_bool_iff.
  split; [apply Qnot_le_lt | apply Qlt_not_le].
Qed.

Lemma Qgtb_false a b : Qgtb a b = false <-> (a <= b)%Q.
Proof. unfold Qgtb. rewrite negb_false_iff. apply Qle_bool_iff. Qed.

(** An [UPDATE] of an existing row overwrites it. *)
Lemma alter_const_insert (m : gmap string user_row) k r r' :
  m !! k = Some r -> alter (fun _ => r') k m = <[k := r']> m.
Proof.
  intros Hk. apply map_eq. intros i.
  destruct (decide (k = i)) as [<- | Hne].
  - rewrite lookup_alter_eq, lookup_insert_eq, Hk. reflexivity.
  - rewrite lookup_alter_ne, lookup_insert_ne by assumption. reflexivity.
Qed.

(** ** Properties of the service *)

Section Properties.

Context {J : PyJWT}.
Variable SECRET_KEY : string.
Variable send_email : string -> string -> outcome unit.

Lemma create_access_token_claims utcnow sub ttl :
  create_access_token SECRET_KEY utcnow {["sub" := PyStr sub]} ttl =
  jwt_encode (access_claims sub (token_expire utcnow ttl)) SECRET_KEY "HS256".
Proof. reflexivity. Qed.

Lemma token_expire_30_minutes utcnow :
  token_expire utcnow (Some (timedelta_minutes ACCESS_TOKEN_EXPIRE_MINUTES)) =
  (utcnow + timedelta_minutes 30)%Q.
Proof. reflexivity. Qed.

(** *** The paths of [verify_otp] *)

Lemma verify_otp_unregistered db email code now utcnow :
  users db !! email = None ->
  verify_otp SECRET_KEY now utcnow email code db =
    (Raise (HTTPException 404 "OTP not found"), db).
Proof.
  destruct db as [u b]. cbn [users]. intros Hrow.
  run_endpoint. rewrite Hrow. reflexivity.
Qed.

Lemma verify_otp_no_timestamp db email code now utcnow r :
  users db !! email = Some r -> timestamp r = None ->
  verify_otp SECRET_KEY now utcnow email code db =
    (Raise TypeError_float_None, db).
Proof.
  destruct db as [u b], r as [o ts]. cbn [users timestamp]. intros Hrow ->.
  run_endpoint. rewrite Hrow. reflexivity.
Qed.

Lemma verify_otp_expired db email code now utcnow r t :
  users db !! email = Some r -> timestamp r = Some t ->
  (t + 180 < now)%Q ->
  verify_otp SECRET_KEY now utcnow email code db =
    (Raise (HTTPException 400 "OTP expired"),
     with_users db (<[email := no_challenge]> (users db))).
Proof.
  destruct db as [u b], r as [o ts]. cbn [users timestamp]. intros Hrow -> Hlate.
  run_endpoint. rewrite Hrow. cbv beta iota.
  rewrite (proj2 (Qgtb_true (now - t) 180)) by lra.
  rewrite (alter_const_insert _ _ _ _ Hrow). reflexivity.
Qed.

Lemma verify_otp_mismatch db email code now utcnow r t :
  users db !! email = Some r -> timestamp r = Some t ->
  (now <= t + 180)%Q -> otp r <> Some code ->
  verify_otp SECRET_KEY now utcnow email code db =
    (Raise (HTTPException 400 "Invalid OTP"), db).
Proof.
  destruct db as [u b], r as [o ts]. cbn [users timestamp otp].
  intros Hrow -> Hlive Hne.
  run_endpoint. rewrite Hrow. cbv beta iota.
  rewrite (proj2 (Qgtb_false (now - t) 180)) by lra.
  rewrite bool_decide_eq_true_2 by assumption. reflexivity.
Qed.

Lemma verify_otp_match db email code now utcnow t token :
  users db !! email = Some (pending code t) ->
  (now <= t + 180)%Q ->
  jwt_encode (access_claims email (utcnow + timedelta_minutes 30)) SECRET_KEY
    "HS256" = Return token ->
  verify_otp SECRET_KEY now utcnow email code db =
    (Return (bearer token), with_users db (<[email := no_challenge]> (users db))).
Proof.
  destruct db as [u b]. cbn [users]. intros Hrow Hlive Htoken.
  run_endpoint. rewrite Hrow. cbv beta iota. unfold pending.
  cbv beta iota delta [otp timestamp].
  rewrite (proj2 (Qgtb_false (now - t) 180)) by lra.
  rewrite bool_decide_eq_false_2 by (intros Hn; apply Hn; reflexivity).
  rewrite (alter_const_insert _ _ _ _ Hrow).
  rewrite create_access_token_claims, token_expire_30_minutes, Htoken.
  reflexivity.
Qed.


(** After a redemption the row is back to NULLs, and the next call takes
    the path of [verify_otp_no_timestamp]. *)
Lemma verify_otp_after_redemption db email code now utcnow t token now' utcnow' :
  users db !! email = Some (pending code t) ->
  (now <= t + 180)%Q ->
  jwt_encode (access_claims email (utcnow + timedelta_minutes 30)) SECRET_KEY
    "HS256" = Return token ->
  verify_otp SECRET_KEY now' utcnow' email code
    (verify_otp SECRET_KEY now utcnow email code db).2 =
    (Raise TypeError_float_None,
     (verify_otp SECRET_KEY now utcnow email code db).2).
Proof.
  intros Hrow Hlive Htoken.
  rewrite (verify_otp_match db email code now utcnow t token Hrow Hlive Htoken).
  cbn [snd].
  apply (verify_otp_no_timestamp _ email code now' utcnow' no_challenge);
    [| reflexivity].
  cbn [with_users users]. apply lookup_insert_eq.
Qed.

(** *** The paths of [verify_token] *)

Lemma verify_token_decode_error {S} (s : S) now token e :
  jwt_decode token SECRET_KEY [ALGORITHM] now = inl e ->
  verify_token SECRET_KEY now token s = (Raise Invalid_token, s).
Proof. intros He. run_endpoint. rewrite He. reflexivity. Qed.

Lemma verify_token_payload {S} (s : S) now token payload :
  jwt_decode token SECRET_KEY [ALGORITHM] now = inr payload ->
  verify_token SECRET_KEY now token s =
  match dict_get payload "sub" with
  | PyNone => (Raise Invalid_token, s)
  | email => (Return email, s)
  end.
Proof.
  intros Hp. run_endpoint. rewrite Hp.
  destruct (dict_get payload "sub"); reflexivity.
Qed.

Lemma verify_token_minted {S} (s : S) utcnow sub ttl token now :
  create_access_token SECRET_KEY utcnow {["sub" := PyStr sub]} ttl = Return token ->
  (now < inject_Z (numeric_date (token_expire utcnow ttl)))%Q ->
  verify_token SECRET_KEY now token s = (Return (PyStr sub), s).
Proof.
  rewrite create_access_token_claims. intros Htoken Hnow.
  rewrite (verify_token_payload s now token _
             (jwt_decode_encode _ _ _ _ _ Htoken Hnow)).
  unfold dict_get. rewrite lookup_insert_ne by discriminate.
  rewrite lookup_singleton_eq. reflexivity.
Qed.

(** *** [token_check], [logout] and [send_otp] *)

Lemma token_check_blacklisted db now token :
  token ∈ blacklisted_tokens db ->
  token_check SECRET_KEY now token db =
    (Raise (HTTPException 401 "Token has been revoked"), db).
Proof.
  destruct db as [u b]. cbn [blacklisted_tokens]. intros Hin.
  run_endpoint. rewrite decide_True by assumption. reflexivity.
Qed.

Lemma token_check_not_blacklisted db now token :
  token ∉ blacklisted_tokens db ->
  token_check SECRET_KEY now token db =
  match verify_token SECRET_KEY now token db with
  | (Return email, db') =>
      (Return [("message", PyStr "Token is valid"); ("email", email)], db')
  | (Raise e, db') => (Raise e, db')
  end.
Proof.
  destruct db as [u b]. cbn [blacklisted_tokens]. intros Hout.
  unfold token_check, is_token_blacklisted, get_db_connection, select_token,
    bind, ret.
  cbv beta iota zeta delta [committed working blacklisted_tokens].
  rewrite decide_False by assumption. reflexivity.
Qed.

Lemma logout_fresh db token :
  token ∉ blacklisted_tokens db ->
  logout token db =
    (Return [("message", PyStr "Successfully logged out")],
     with_blacklist db ({[ token ]} ∪ blacklisted_tokens db)).
Proof.
  destruct db as [u b]. cbn [blacklisted_tokens]. intros Hout.
  run_endpoint. rewrite decide_False by assumption. reflexivity.
Qed.

Lemma logout_blacklisted db token :
  token ∈ blacklisted_tokens db ->
  logout token db = (Raise token_not_unique, db).
Proof.
  destruct db as [u b]. cbn [blacklisted_tokens]. intros Hin.
  run_endpoint. rewrite decide_True by assumption. reflexivity.
Qed.

Lemma send_otp_stores db draws now email r :
  users db !! email = Some r ->
  send_otp send_email draws now email db =
  let db' := with_users db
               (<[email := pending (generate_otp draws 6) now]> (users db)) in
  match send_email email (generate_otp draws 6) with
  | Return _ => (Return [("message", PyStr "OTP sent")], db')
  | Raise _ => (Raise (HTTPException 500 "Failed to send email"), db')
  end.
Proof.
  destruct db as [u b]. cbn [users]. intros Hrow.
  run_endpoint. rewrite Hrow. cbv beta iota zeta.
  rewrite (alter_const_insert _ _ _ _ Hrow).
  destruct (send_email email (generate_otp draws 6)); reflexivity.
Qed.

(** C7. [register_user] on an email without row inserts the row with no
    challenge (otp and timestamp NULL) and returns; on an email that has a
    row, in whatever state, it raises 400 "Email already registered" and
    leaves the database as it was. *)
Theorem C7_register_user (db : database) (email : string) :
  register_user email db =
  match users db !! email with
  | None =>
      (Return [("message", PyStr "User registered successfully")],
       with_users db (<[email := no_challenge]> (users db)))
  | Some _ =>
      (Raise (HTTPException 400 "Email already registered"), db)
  end.
Proof.
  run_endpoint. destruct db as [u b]. cbn [users].
  destruct (u !! email) as [r|] eqn:Hrow; cbv beta iota; rewrite ?Hrow; reflexivity.
Qed.


(** C1. On a registered email without pending challenge (otp and
    timestamp NULL) [verify_otp] does not answer 404 "OTP not found": the
    subtraction [current_time - timestamp] raises a TypeError, whatever
    the supplied code, and the database is left as it was. *)
Theorem C1_verify_otp_without_challenge db email code now utcnow :
  users db !! email = Some no_challenge ->
  verify_otp SECRET_KEY now utcnow email code db = (Raise TypeError_float_None, db)
  /\ TypeError_float_None <> HTTPException 404 "OTP not found".
Proof.
  intros Hrow. split; [| discriminate].
  apply (verify_otp_no_timestamp db email code now utcnow no_challenge Hrow).
  reflexivity.
Qed.

(** C2. A second [logout] with the same token does not succeed: whatever
    the first call did, the second one raises the IntegrityError of the
    primary key of [blacklisted_tokens]. *)
Theorem C2_logout_twice db token :
  logout token (logout token db).2 =
    (Raise token_not_unique, (logout token db).2).
Proof.
  destruct (decide (token ∈ blacklisted_tokens db)) as [Hin | Hout].
  - rewrite (logout_blacklisted db token Hin). cbn [snd].
    apply logout_blacklisted, Hin.
  - rewrite (logout_fresh db token Hout). cbn [snd].
    apply logout_blacklisted. cbn [with_blacklist blacklisted_tokens].
    set_solver.
Qed.

(** C3 (amended). Both failures of [token_check] carry the status 401, but
    their details differ: "Token has been revoked" for a blacklisted
    token, "Invalid token" for a token that is not blacklisted and that
    PyJWT rejects. *)
Theorem C3_token_check_failures db' db now token e :
  token ∈ blacklisted_tokens db' ->
  token ∉ blacklisted_tokens db ->
  jwt_decode token SECRET_KEY [ALGORITHM] now = inl e ->
  token_check SECRET_KEY now token db' =
    (Raise (HTTPException 401 "Token has been revoked"), db')
  /\ token_check SECRET_KEY now token db =
    (Raise (HTTPException 401 "Invalid token"), db).
Proof.
  intros Hin Hout He. split.
  - apply token_check_blacklisted, Hin.
  - rewrite (token_check_not_blacklisted db now token Hout).
    rewrite (verify_token_decode_error db now token e He). reflexivity.
Qed.


(** C5. With an unexpired challenge pending, a supplied code different
    from the stored one raises 400 "Invalid OTP" and leaves the database
    as it was, so that a later call with the stored code, still within
    180 seconds of the issue, returns a token. *)
Theorem C5_verify_otp_mismatch_retry db email stored t supplied now utcnow :
  users db !! email = Some (pending stored t) ->
  (now <= t + 180)%Q ->
  supplied <> stored ->
  verify_otp SECRET_KEY now utcnow email supplied db =
    (Raise (HTTPException 400 "Invalid OTP"), db)
  /\ forall now' utcnow', (now' <= t + 180)%Q ->
       exists token,
         verify_otp SECRET_KEY now' utcnow' email stored db =
           (Return (bearer token),
            with_users db (<[email := no_challenge]> (users db))).
Proof.
  intros Hrow Hlive Hne. split.
  - apply (verify_otp_mismatch db email supplied now utcnow _ t Hrow);
      [reflexivity | assumption | cbn; congruence].
  - intros now' utcnow' Hlive'.
    destruct (jwt_encode_returns email (utcnow' + timedelta_minutes 30)
                SECRET_KEY) as [token Htoken].
    exists token. apply (verify_otp_match db email stored now' utcnow' t token);
      assumption.
Qed.

(** C6. With a challenge issued at [t] pending, [verify_otp] called with
    the stored code at or before [t + 180] clears the challenge and
    returns the token that PyJWT signs, under the secret key and HS256,
    for the claims "sub" = the email and "exp" = [utcnow] plus 30
    minutes; before that expiry [verify_token] maps the token back to the
    email. *)
Theorem C6_verify_otp_success db email stored t now utcnow :
  users db !! email = Some (pending stored t) ->
  (now <= t + 180)%Q ->
  exists token,
    jwt_encode (<["exp" := PyDatetime (utcnow + timedelta_minutes 30)]>
                  {["sub" := PyStr email]}) SECRET_KEY "HS256" = Return token
    /\ verify_otp SECRET_KEY now utcnow email stored db =
         (Return (bearer token),
          with_users db (<[email := no_challenge]> (users db)))
    /\ users (verify_otp SECRET_KEY now utcnow email stored db).2 !! email =
         Some no_challenge
    /\ forall later,
         (later < inject_Z (numeric_date (utcnow + timedelta_minutes 30)))%Q ->
         verify_token SECRET_KEY later token db = (Return (PyStr email), db).
Proof.
  intros Hrow Hlive.
  destruct (jwt_encode_returns email (utcnow + timedelta_minutes 30) SECRET_KEY)
    as [token Htoken].
  pose proof (verify_otp_match db email stored now utcnow t token
                Hrow Hlive Htoken) as Hrun.
  exists token. split; [exact Htoken |]. split; [exact Hrun |]. split.
  - rewrite Hrun. cbn [snd with_users users]. apply lookup_insert_eq.
  - intros later Hlater.
    apply (verify_token_minted db utcnow email
             (Some (timedelta_minutes ACCESS_TOKEN_EXPIRE_MINUTES)) token later).
    + rewrite create_access_token_claims, token_expire_30_minutes. exact Htoken.
    + rewrite token_expire_30_minutes. exact Hlater.
Qed.

(** C8. When the email has a row and the delivery raises, [send_otp]
    raises 500 "Failed to send email" and the committed row holds the new
    code and timestamp. *)
Theorem C8_send_otp_delivery_failure db draws now email r e :
  users db !! email = Some r ->
  send_email email (generate_otp draws 6) = Raise e ->
  send_otp send_email draws now email db =
    (Raise (HTTPException 500 "Failed to send email"),
     with_users db (<[email := pending (generate_otp draws 6) now]> (users db))).
Proof.
  intros Hrow Hsend. rewrite (send_otp_stores db draws now email r Hrow).
  cbv zeta. rewrite Hsend. reflexivity.
Qed.


(** C10. A token that PyJWT decodes to a payload without "sub" makes
    [verify_token] raise 401 "Invalid token", the very exception it raises
    for every token that PyJWT rejects; it does not return. *)
Theorem C10_verify_token_without_sub {S} (s : S) now token payload :
  jwt_decode token SECRET_KEY [ALGORITHM] now = inr payload ->
  payload !! "sub" = None ->
  verify_token SECRET_KEY now token s =
    (Raise (HTTPException 401 "Invalid token"), s)
  /\ forall token' e,
       jwt_decode token' SECRET_KEY [ALGORITHM] now = inl e ->
       verify_token SECRET_KEY now token' s = verify_token SECRET_KEY now token s.
Proof.
  intros Hp Hsub.
  assert (verify_token SECRET_KEY now token s = (Raise Invalid_token, s)) as Hrun.
  { rewrite (verify_token_payload s now token payload Hp).
    unfold dict_get. rewrite Hsub. reflexivity. }
  split; [exact Hrun |].
  intros token' e He. rewrite Hrun. apply (verify_token_decode_error s now token' e He).
Qed.

End Properties.

(** C1: A registered identity without challenge. *)
Lemma C1_witness :
  verify_otp (J := ref_codec) default_key 1000 1000 alice "123456" db_registered =
    (Raise TypeError_float_None, db_registered)
  /\ TypeError_float_None <> HTTPException 404 "OTP not found".
Proof.
  apply (C1_verify_otp_without_challenge (J := ref_codec) default_key
           db_registered alice "123456" 1000 1000).
  vm_compute. reflexivity.
Defined.

(** C3, as stated, fails: the same forged token is answered "Token has
    been revoked" where it is blacklisted and "Invalid token" where it is
    not, so the caller tells a revocation from a bad signature. *)
Lemma C3_counterexample :
  (forged_token ∈ blacklisted_tokens db_revoked)
  /\ (forged_token ∉ blacklisted_tokens db_empty)
  /\ jwt_decode (PyJWT := ref_codec) forged_token default_key [ALGORITHM] 1000 =
       inl InvalidSignatureError
  /\ (token_check (J := ref_codec) default_key 1000 forged_token db_revoked).1 <>
     (token_check (J := ref_codec) default_key 1000 forged_token db_empty).1.
Proof.
  assert (forged_token ∈ blacklisted_tokens db_revoked) as Hin
    by (cbn [db_revoked blacklisted_tokens]; set_solver).
  assert (forged_token ∉ blacklisted_tokens db_empty) as Hout
    by (cbn [db_empty blacklisted_tokens]; set_solver).
  assert (jwt_decode (PyJWT := ref_codec) forged_token default_key [ALGORITHM] 1000 =
            inl InvalidSignatureError) as Hsig
    by (vm_compute; reflexivity).
  split; [exact Hin |]. split; [exact Hout |]. split; [exact Hsig |].
  rewrite (token_check_blacklisted (J := ref_codec) default_key db_revoked 1000
             forged_token Hin).
  rewrite (token_check_not_blacklisted (J := ref_codec) default_key db_empty 1000
             forged_token Hout).
  rewrite (verify_token_decode_error (J := ref_codec) default_key db_empty 1000
             forged_token _ Hsig).
  cbn [fst]. discriminate.
Qed.

(** C3: The forged token, blacklisted or not. *)
Lemma C3_witness :
  token_check (J := ref_codec) default_key 1000 forged_token db_revoked =
    (Raise (HTTPException 401 "Token has been revoked"), db_revoked)
  /\ token_check (J := ref_codec) default_key 1000 forged_token db_empty =
    (Raise (HTTPException 401 "Invalid token"), db_empty).
Proof.
  apply (C3_token_check_failures (J := ref_codec) default_key db_revoked db_empty
           1000 forged_token InvalidSignatureError).
  - cbn [db_revoked blacklisted_tokens]. set_solver.
  - cbn [db_empty blacklisted_tokens]. set_solver.
  - vm_compute. reflexivity.
Defined.


(** C5: A wrong code at instant 1100. *)
Lemma C5_witness :
  verify_otp (J := ref_codec) default_key 1100 1100 alice "654321" db_pending =
    (Raise (HTTPException 400 "Invalid OTP"), db_pending)
  /\ forall now' utcnow', (now' <= 1000 + 180)%Q ->
       exists token,
         verify_otp (J := ref_codec) default_key now' utcnow' alice "123456"
           db_pending =
           (Return (bearer token),
            with_users db_pending (<[alice := no_challenge]> (users db_pending))).
Proof.
  apply (C5_verify_otp_mismatch_retry (J := ref_codec) default_key db_pending
           alice "123456" 1000 "654321" 1100 1100).
  - vm_compute. reflexivity.
  - vm_compute. discriminate.
  - discriminate.
Defined.

(** C6: The stored code at instant 1180, the last valid one. *)
Lemma C6_witness :
  exists token,
    jwt_encode (PyJWT := ref_codec)
      (<["exp" := PyDatetime (1180 + timedelta_minutes 30)]>
         {["sub" := PyStr alice]}) default_key "HS256" = Return token
    /\ verify_otp (J := ref_codec) default_key 1180 1180 alice "123456" db_pending =
         (Return (bearer token),
          with_users db_pending (<[alice := no_challenge]> (users db_pending)))
    /\ users (verify_otp (J := ref_codec) default_key 1180 1180 alice "123456"
                db_pending).2 !! alice = Some no_challenge
    /\ forall later,
         (later < inject_Z (numeric_date (1180 + timedelta_minutes 30)))%Q ->
         verify_token (J := ref_codec) default_key later token db_pending =
           (Return (PyStr alice), db_pending).
Proof.
  apply (C6_verify_otp_success (J := ref_codec) default_key db_pending alice
           "123456" 1000 1180 1180).
  - vm_compute. reflexivity.
  - vm_compute. discriminate.
Defined.

(** C8: An unreachable SMTP server. *)
Lemma C8_witness :
  send_otp smtp_down (fun i => i) 1000 alice db_registered =
    (Raise (HTTPException 500 "Failed to send email"),
     with_users db_registered
       (<[alice := pending (generate_otp (fun i => i) 6) 1000]>
          (users db_registered))).
Proof.
  apply (C8_send_otp_delivery_failure smtp_down db_registered (fun i => i) 1000
           alice no_challenge (SMTPException "Connection refused")).
  - vm_compute. reflexivity.
  - reflexivity.
Defined.


(** C10: A signed token with an empty payload. *)
Lemma C10_witness :
  verify_token (J := ref_codec) default_key 1000 anonymous_token tt =
    (Raise (HTTPException 401 "Invalid token"), tt)
  /\ forall token' e,
       jwt_decode (PyJWT := ref_codec) token' default_key [ALGORITHM] 1000 = inl e ->
       verify_token (J := ref_codec) default_key 1000 token' tt =
       verify_token (J := ref_codec) default_key 1000 anonymous_token tt.
Proof.
  apply (C10_verify_token_without_sub (J := ref_codec) default_key tt 1000
           anonymous_token ∅).
  - vm_compute. reflexivity.
  - reflexivity.
Defined.

(** ** A session, step by step *)

Example generate_otp_draws : generate_otp (fun i => 3 * i + 14) 6 = "470369".
Proof. vm_compute. reflexivity. Qed.

Example register_then_register :
  (register_user alice (register_user alice db_empty).2).1 =
    Raise (HTTPException 400 "Email already registered").
Proof. vm_compute. reflexivity. Qed.

Example verify_otp_unknown_email :
  (verify_otp (J := ref_codec) default_key 1100 1100 "b@x.com" "123456"
     db_pending).1 = Raise (HTTPException 404 "OTP not found").
Proof. vm_compute. reflexivity. Qed.

Example verify_otp_at_the_limit :
  users (verify_otp (J := ref_codec) default_key 1180 1180 alice "123456"
           db_pending).2 !! alice = Some no_challenge.
Proof. vm_compute. reflexivity. Qed.

Example token_check_anonymous :
  (token_check (J := ref_codec) default_key 1000 anonymous_token db_empty).1 =
    Raise (HTTPException 401 "Invalid token").
Proof. vm_compute. reflexivity. Qed.

(** ** Further properties: the OTP generator *)

Lemma length_string_of_list_ascii l :
  String.length (String.string_of_list_ascii l) = length l.
Proof. induction l as [| c l IH]; cbn; [reflexivity | rewrite IH; reflexivity]. Qed.

Lemma random_choice_digit r : is_digit (random_choice r digits) = true.
Proof.
  unfold random_choice. change (String.length digits) with 10.
  pose proof (Nat.mod_upper_bound r 10 ltac:(discriminate)) as Hlt.
  generalize dependent (r mod 10). intros k Hlt.
  do 10 (destruct k as [| k]; [vm_compute; reflexivity |]).
  exfalso. lia.
Qed.

Lemma generate_otp_shape draws n :
  String.length (generate_otp draws n) = n
  /\ all_digits (generate_otp draws n) = true.
Proof.
  unfold generate_otp, all_digits. split.
  - rewrite length_string_of_list_ascii, List.length_map, List.length_seq.
    reflexivity.
  - rewrite String.list_ascii_of_string_of_list_ascii.
    induction (List.seq 0 n) as [| i l IH]; [reflexivity |].
    cbn [List.map forallb]. rewrite random_choice_digit. exact IH.
Qed.

(** X1. [generate_otp(length)] is a string of exactly [length] characters,
    each of them a decimal digit, whatever the generator draws. *)
Theorem X1_generate_otp_digits draws n :
  String.length (generate_otp draws n) = n
  /\ all_digits (generate_otp draws n) = true.
Proof. apply generate_otp_shape. Qed.

(** ** Further properties: the endpoints *)

Section Further.

Context {J : PyJWT}.
Variable SECRET_KEY : string.

Lemma register_user_cases db email :
  register_user email db =
  match users db !! email with
  | None =>
      (Return [("message", PyStr "User registered successfully")],
       with_users db (<[email := no_challenge]> (users db)))
  | Some _ => (Raise (HTTPException 400 "Email already registered"), db)
  end.
Proof.
  run_endpoint. destruct db as [u b]. cbn [users].
  destruct (u !! email) as [r|] eqn:Hrow; cbv beta iota; rewrite ?Hrow; reflexivity.
Qed.

Lemma send_otp_unknown send_email db draws now email :
  users db !! email = None ->
  send_otp send_email draws now email db =
    (Raise (HTTPException 400 "Email not allowed"), db).
Proof.
  destruct db as [u b]. cbn [users]. intros Hrow.
  run_endpoint. rewrite Hrow. reflexivity.
Qed.

Lemma send_otp_db send_email db draws now email r :
  users db !! email = Some r ->
  (send_otp send_email draws now email db).2 =
    with_users db (<[email := pending (generate_otp draws 6) now]> (users db)).
Proof.
  intros Hrow. rewrite (send_otp_stores send_email db draws now email r Hrow).
  cbv zeta. destruct (send_email email (generate_otp draws 6)); reflexivity.
Qed.

(** The last path of [verify_otp], whether [jwt.encode] returns or not. *)
Lemma verify_otp_redeem db email code now utcnow t :
  users db !! email = Some (pending code t) ->
  (now <= t + 180)%Q ->
  verify_otp SECRET_KEY now utcnow email code db =
    (match jwt_encode (access_claims email (utcnow + timedelta_minutes 30))
             SECRET_KEY "HS256" with
     | Return token => Return (bearer token)
     | Raise e => Raise e
     end,
     with_users db (<[email := no_challenge]> (users db))).
Proof.
  destruct db as [u b]. cbn [users]. intros Hrow Hlive.
  run_endpoint. rewrite Hrow. cbv beta iota. unfold pending.
  cbv beta iota delta [otp timestamp].
  rewrite (proj2 (Qgtb_false (now - t) 180)) by lra.
  rewrite bool_decide_eq_false_2 by (intros Hn; apply Hn; reflexivity).
  rewrite (alter_const_insert _ _ _ _ Hrow).
  rewrite create_access_token_claims, token_expire_30_minutes.
  destruct (jwt_encode _ _ _); reflexivity.
Qed.

Lemma verify_otp_paths db email code now utcnow :
  verify_otp_path SECRET_KEY db email code now utcnow
    (verify_otp SECRET_KEY now utcnow email code db).
Proof.
  destruct (users db !! email) as [[o ts]|] eqn:Hrow.
  - destruct ts as [t|].
    + destruct (Qlt_le_dec (t + 180) now) as [Hlate | Hlive].
      * rewrite (verify_otp_expired SECRET_KEY db email code now utcnow _ t Hrow
                   eq_refl Hlate).
        eapply (path_expired SECRET_KEY); [exact Hrow | reflexivity | exact Hlate].
      * destruct (decide (o = Some code)) as [-> | Hne].
        -- rewrite (verify_otp_redeem db email code now utcnow t Hrow Hlive).
           apply (path_redeem SECRET_KEY db email code now utcnow t Hrow Hlive).
        -- rewrite (verify_otp_mismatch SECRET_KEY db email code now utcnow _ t
                      Hrow eq_refl Hlive Hne).
           eapply (path_invalid SECRET_KEY); [exact Hrow | reflexivity | exact Hlive | exact Hne].
    + rewrite (verify_otp_no_timestamp SECRET_KEY db email code now utcnow _ Hrow
                 eq_refl).
      eapply (path_type_error SECRET_KEY); [exact Hrow | reflexivity].
  - rewrite (verify_otp_unregistered SECRET_KEY db email code now utcnow Hrow).
    apply (path_not_found SECRET_KEY), Hrow.
Qed.

Lemma verify_token_outcome {S} (s : S) now token :
  verify_token SECRET_KEY now token s =
  (match jwt_decode token SECRET_KEY [ALGORITHM] now with
   | inl _ => Raise Invalid_token
   | inr payload =>
       match dict_get payload "sub" with
       | PyNone => Raise Invalid_token
       | email => Return email
       end
   end, s).
Proof.
  destruct (jwt_decode token SECRET_KEY [ALGORITHM] now) as [e | payload] eqn:Hd.
  - apply (verify_token_decode_error SECRET_KEY s now token e Hd).
  - rewrite (verify_token_payload SECRET_KEY s now token payload Hd).
    destruct (dict_get payload "sub"); reflexivity.
Qed.

Lemma token_check_db db now token :
  (token_check SECRET_KEY now token db).2 = db.
Proof.
  destruct (decide (token ∈ blacklisted_tokens db)) as [Hin | Hout].
  - rewrite (token_check_blacklisted SECRET_KEY db now token Hin). reflexivity.
  - rewrite (token_check_not_blacklisted SECRET_KEY db now token Hout).
    rewrite verify_token_outcome.
    destruct (jwt_decode token SECRET_KEY [ALGORITHM] now) as [e | payload];
      [reflexivity |].
    destruct (dict_get payload "sub"); reflexivity.
Qed.

Lemma logout_db db token :
  (logout token db).2 = with_blacklist db ({[ token ]} ∪ blacklisted_tokens db).
Proof.
  destruct (decide (token ∈ blacklisted_tokens db)) as [Hin | Hout].
  - rewrite (logout_blacklisted db token Hin). cbn [snd].
    destruct db as [u b]. unfold with_blacklist. cbn [users blacklisted_tokens] in *.
    f_equal. apply set_eq. intros x. rewrite elem_of_union, elem_of_singleton.
    split; [intros Hx; right; exact Hx | intros [-> | Hx]; assumption].
  - rewrite (logout_fresh db token Hout). reflexivity.
Qed.

Lemma verify_otp_db db email code now utcnow :
  (verify_otp SECRET_KEY now utcnow email code db).2 = db
  \/ (is_Some (users db !! email)
      /\ (verify_otp SECRET_KEY now utcnow email code db).2 =
           with_users db (<[email := no_challenge]> (users db))).
Proof.
  destruct (verify_otp_paths db email code now utcnow)
    as [Hrow | r Hrow Hts | r t Hrow Hts Hlate | r t Hrow Hts Hlive Hne
        | t Hrow Hlive]; cbn [snd]; eauto.
Qed.

Lemma verify_otp_returns db email code now utcnow resp db' :
  verify_otp SECRET_KEY now utcnow email code db = (Return resp, db') ->
  exists t token,
    users db !! email = Some (pending code t)
    /\ (now <= t + 180)%Q
    /\ jwt_encode (access_claims email (utcnow + timedelta_minutes 30))
         SECRET_KEY "HS256" = Return token
    /\ resp = bearer token
    /\ db' = with_users db (<[email := no_challenge]> (users db)).
Proof.
  intros Hrun.
  destruct (verify_otp_paths db email code now utcnow)
    as [Hrow | r Hrow Hts | r t Hrow Hts Hlate | r t Hrow Hts Hlive Hne
        | t Hrow Hlive]; try discriminate Hrun.
  destruct (jwt_encode (access_claims email (utcnow + timedelta_minutes 30))
              SECRET_KEY "HS256") as [token | e] eqn:Htoken;
    [| discriminate Hrun].
  injection Hrun as <- <-. exists t, token. auto.
Qed.

Lemma cleared_row db email :
  users (with_users db (<[email := no_challenge]> (users db))) !! email =
    Some no_challenge.
Proof. cbn [with_users users]. apply lookup_insert_eq. Qed.

(** X2. [send_otp] for an email without row raises 400 "Email not
    allowed" and writes nothing, whatever [send_email] would do. *)
Theorem X2_send_otp_unknown_email send_email db draws now email :
  users db !! email = None ->
  send_otp send_email draws now email db =
    (Raise (HTTPException 400 "Email not allowed"), db).
Proof. apply send_otp_unknown. Qed.

(** X3. When the email has a row and the delivery returns, [send_otp]
    answers "OTP sent" and the row holds the generated code with the
    reading of the clock. *)
Theorem X3_send_otp_sent send_email db draws now email r :
  users db !! email = Some r ->
  send_email email (generate_otp draws 6) = Return tt ->
  send_otp send_email draws now email db =
    (Return [("message", PyStr "OTP sent")],
     with_users db (<[email := pending (generate_otp draws 6) now]> (users db))).
Proof.
  intros Hrow Hsend. rewrite (send_otp_stores send_email db draws now email r Hrow).
  cbv zeta. rewrite Hsend. reflexivity.
Qed.

(** X4. The code stored by [send_otp] at [t], delivered or not, is
    redeemed by [verify_otp] at any instant up to [t + 180]: a bearer
    token is returned and the row is cleared. *)
Theorem X4_send_otp_then_verify_otp send_email db draws t email r now utcnow :
  users db !! email = Some r ->
  (now <= t + 180)%Q ->
  exists token,
    verify_otp SECRET_KEY now utcnow email (generate_otp draws 6)
      (send_otp send_email draws t email db).2 =
      (Return (bearer token),
       with_users db (<[email := no_challenge]> (users db))).
Proof.
  intros Hrow Hlive. rewrite (send_otp_db send_email db draws t email r Hrow).
  destruct (jwt_encode_returns email (utcnow + timedelta_minutes 30) SECRET_KEY)
    as [token Htoken].
  exists token.
  rewrite (verify_otp_match SECRET_KEY _ email (generate_otp draws 6) now utcnow
             t token); [| cbn [with_users users]; apply lookup_insert_eq
                        | exact Hlive | exact Htoken].
  unfold with_users. cbn [users blacklisted_tokens].
  rewrite insert_insert_eq. reflexivity.
Qed.

(** X5. A second [send_otp] for the same email overwrites the first: the
    database is the one the second call alone would leave. *)
Theorem X5_send_otp_overwrites se1 se2 db draws1 draws2 t1 t2 email :
  (send_otp se2 draws2 t2 email (send_otp se1 draws1 t1 email db).2).2 =
  (send_otp se2 draws2 t2 email db).2.
Proof.
  destruct (users db !! email) as [r|] eqn:Hrow.
  - rewrite (send_otp_db se1 db draws1 t1 email r Hrow).
    rewrite (send_otp_db se2 db draws2 t2 email r Hrow).
    rewrite (send_otp_db se2 _ draws2 t2 email
               (pending (generate_otp draws1 6) t1))
      by (cbn [with_users users]; apply lookup_insert_eq).
    unfold with_users. cbn [users blacklisted_tokens].
    rewrite insert_insert_eq. reflexivity.
  - rewrite (send_otp_unknown se1 db draws1 t1 email Hrow). reflexivity.
Qed.

(** X6. After a second [send_otp] the code of the first one, when it
    differs from the new code, is answered 400 "Invalid OTP" within the
    180 seconds of the second. *)
Theorem X6_reissue_invalidates se1 se2 db draws1 draws2 t1 t2 email r now utcnow :
  users db !! email = Some r ->
  generate_otp draws1 6 <> generate_otp draws2 6 ->
  (now <= t2 + 180)%Q ->
  (verify_otp SECRET_KEY now utcnow email (generate_otp draws1 6)
     (send_otp se2 draws2 t2 email (send_otp se1 draws1 t1 email db).2).2).1 =
    Raise (HTTPException 400 "Invalid OTP").
Proof.
  intros Hrow Hne Hlive.
  rewrite (send_otp_db se1 db draws1 t1 email r Hrow).
  rewrite (send_otp_db se2 _ draws2 t2 email (pending (generate_otp draws1 6) t1))
    by (cbn [with_users users]; apply lookup_insert_eq).
  rewrite (verify_otp_mismatch SECRET_KEY _ email (generate_otp draws1 6) now
             utcnow (pending (generate_otp draws2 6) t2) t2);
    [reflexivity | cbn [with_users users]; apply lookup_insert_eq | reflexivity
     | exact Hlive | cbn [pending otp]; congruence].
Qed.


(** X8. A challenge is redeemed once: after a [verify_otp] that returned,
    every further [verify_otp] for that email, with any code and at any
    time, raises the TypeError of the NULL timestamp until a new code is
    issued. *)
Theorem X8_verify_otp_single_use db email code now utcnow resp db'
    code' now' utcnow' :
  verify_otp SECRET_KEY now utcnow email code db = (Return resp, db') ->
  verify_otp SECRET_KEY now' utcnow' email code' db' =
    (Raise TypeError_float_None, db').
Proof.
  intros Hrun.
  destruct (verify_otp_returns db email code now utcnow resp db' Hrun)
    as (t & token & _ & _ & _ & _ & ->).
  apply (verify_otp_no_timestamp SECRET_KEY _ email code' now' utcnow'
           no_challenge); [apply cleared_row | reflexivity].
Qed.


(** X10. [verify_otp] writes at most the row of its email: the blacklist,
    the set of registered emails and every other row are as before,
    whatever the outcome. *)
Theorem X10_verify_otp_frame db email code now utcnow :
  let db' := (verify_otp SECRET_KEY now utcnow email code db).2 in
  blacklisted_tokens db' = blacklisted_tokens db
  /\ dom (users db') = dom (users db)
  /\ forall email', email' <> email -> users db' !! email' = users db !! email'.
Proof.
  cbv zeta.
  destruct (verify_otp_db db email code now utcnow) as [-> | [Hrow ->]];
    [auto |].
  cbn [with_users users blacklisted_tokens]. split; [reflexivity |]. split.
  - rewrite dom_insert_L. apply elem_of_dom in Hrow.
    apply set_eq. intros x. rewrite elem_of_union, elem_of_singleton.
    split; [intros [-> | Hx]; assumption | intros Hx; right; exact Hx].
  - intros email' Hne. apply lookup_insert_ne. congruence.
Qed.

(** X11. [verify_otp] for an email without row raises 404 "OTP not found"
    and writes nothing. *)
Theorem X11_verify_otp_unknown_email db email code now utcnow :
  users db !! email = None ->
  verify_otp SECRET_KEY now utcnow email code db =
    (Raise (HTTPException 404 "OTP not found"), db).
Proof. apply verify_otp_unregistered. Qed.

End Further.

(** ** Further properties: tokens, revocation and the routes *)

Section Tokens.

Context {J : PyJWT}.
Variable SECRET_KEY : string.

(** X12. [token_check] on a token that is not blacklisted and that PyJWT
    decodes to a payload with a subject other than None answers "Token is
    valid" with that subject, and writes nothing. *)
Theorem X12_token_check_valid db now token payload email :
  token ∉ blacklisted_tokens db ->
  jwt_decode token SECRET_KEY [ALGORITHM] now = inr payload ->
  payload !! "sub" = Some email ->
  email <> PyNone ->
  token_check SECRET_KEY now token db =
    (Return [("message", PyStr "Token is valid"); ("email", email)], db).
Proof.
  intros Hout Hd Hsub Hnone.
  rewrite (token_check_not_blacklisted SECRET_KEY db now token Hout).
  rewrite (verify_token_payload SECRET_KEY db now token payload Hd).
  unfold dict_get. rewrite Hsub. destruct email; [congruence | reflexivity ..].
Qed.

(** X13. After [logout(token)], whether it returned or raised,
    [token_check(token)] raises 401 "Token has been revoked", whatever
    PyJWT says of the token. *)
Theorem X13_logout_then_token_check db now token :
  token_check SECRET_KEY now token (logout token db).2 =
    (Raise (HTTPException 401 "Token has been revoked"), (logout token db).2).
Proof.
  apply token_check_blacklisted. rewrite logout_db.
  cbn [with_blacklist blacklisted_tokens].
  apply elem_of_union_l, elem_of_singleton. reflexivity.
Qed.

(** X14. [token_check] never writes to the database. *)
Theorem X14_token_check_read_only db now token :
  (token_check SECRET_KEY now token db).2 = db.
Proof. apply token_check_db. Qed.

(** X15. A session: the token returned by [verify_otp] is accepted by
    [token_check] with the email as subject at every instant before its
    expiry, as long as it is not blacklisted, and refused as revoked once
    [logout] has been called with it. *)
Theorem X15_session db email stored t now utcnow later :
  users db !! email = Some (pending stored t) ->
  (now <= t + 180)%Q ->
  (later < inject_Z (numeric_date (utcnow + timedelta_minutes 30)))%Q ->
  exists token db',
    verify_otp SECRET_KEY now utcnow email stored db = (Return (bearer token), db')
    /\ (token ∉ blacklisted_tokens db ->
        token_check SECRET_KEY later token db' =
          (Return [("message", PyStr "Token is valid"); ("email", PyStr email)],
           db'))
    /\ (token_check SECRET_KEY later token (logout token db').2).1 =
         Raise (HTTPException 401 "Token has been revoked").
Proof.
  intros Hrow Hlive Hlater.
  destruct (jwt_encode_returns email (utcnow + timedelta_minutes 30) SECRET_KEY)
    as [token Htoken].
  exists token, (with_users db (<[email := no_challenge]> (users db))).
  split; [| split].
  - apply (verify_otp_match SECRET_KEY db email stored now utcnow t token);
      assumption.
  - intros Hout.
    rewrite (token_check_not_blacklisted SECRET_KEY _ later token)
      by exact Hout.
    rewrite (verify_token_minted SECRET_KEY _ utcnow email
               (Some (timedelta_minutes ACCESS_TOKEN_EXPIRE_MINUTES)) token later);
      [reflexivity | |].
    + rewrite create_access_token_claims, token_expire_30_minutes. exact Htoken.
    + rewrite token_expire_30_minutes. exact Hlater.
  - rewrite (token_check_blacklisted SECRET_KEY _ later token); [reflexivity |].
    rewrite logout_db. cbn [with_blacklist blacklisted_tokens].
    apply elem_of_union_l, elem_of_singleton. reflexivity.
Qed.

(** X16. [logout] records its token and nothing else: afterwards the
    blacklist is the old one with the token added, whether the call
    returned or raised, and the table of users is untouched. *)
Theorem X16_logout_effect db token :
  blacklisted_tokens (logout token db).2 = {[ token ]} ∪ blacklisted_tokens db
  /\ users (logout token db).2 = users db.
Proof. rewrite logout_db. split; reflexivity. Qed.


(** X18. A zero [expires_delta] is false in [if expires_delta:], so the
    token gets the default lifetime, as with no [expires_delta] at all. *)
Theorem X18_create_access_token_zero_delta utcnow data d :
  (d == 0)%Q ->
  create_access_token SECRET_KEY utcnow data (Some d) =
  create_access_token SECRET_KEY utcnow data None.
Proof.
  intros Hd. unfold create_access_token, token_expire. cbv zeta.
  rewrite (proj2 (Qeq_bool_iff d 0) Hd). reflexivity.
Qed.


(** What a request may write. *)
Lemma app_effect req db :
  match req with
  | POST_register email =>
      (app SECRET_KEY req db).2 =
      match users db !! email with
      | None => with_users db (<[email := no_challenge]> (users db))
      | Some _ => db
      end
  | POST_send_otp _ draws t email =>
      (app SECRET_KEY req db).2 =
      match users db !! email with
      | Some _ =>
          with_users db (<[email := pending (generate_otp draws 6) t]> (users db))
      | None => db
      end
  | POST_verify_otp _ _ email _ =>
      (app SECRET_KEY req db).2 = db
      \/ (is_Some (users db !! email)
          /\ (app SECRET_KEY req db).2 =
               with_users db (<[email := no_challenge]> (users db)))
  | GET_token_check _ _ => (app SECRET_KEY req db).2 = db
  | POST_logout token =>
      (app SECRET_KEY req db).2 =
        with_blacklist db ({[ token ]} ∪ blacklisted_tokens db)
  end.
Proof.
  destruct req as [email | delivery draws t email | now utcnow email code
                   | now token | token]; cbn [app].
  - rewrite register_user_cases. destruct (users db !! email); reflexivity.
  - destruct (users db !! email) as [r|] eqn:Hrow.
    + apply (send_otp_db _ db draws t email r Hrow).
    + rewrite (send_otp_unknown _ db draws t email Hrow). reflexivity.
  - apply verify_otp_db.
  - apply token_check_db.
  - apply logout_db.
Qed.

(** X20. No request deletes: whatever the requests served, every
    registered email stays registered and every blacklisted token stays
    blacklisted. *)
Theorem X20_serve_monotone reqs db :
  dom (users db) ⊆ dom (users (serve SECRET_KEY reqs db))
  /\ blacklisted_tokens db ⊆ blacklisted_tokens (serve SECRET_KEY reqs db).
Proof.
  revert db. induction reqs as [| req reqs IH]; intros db; cbn [serve].
  - split; reflexivity.
  - destruct (IH (app SECRET_KEY req db).2) as [IHu IHb].
    assert (dom (users db) ⊆ dom (users (app SECRET_KEY req db).2)
            /\ blacklisted_tokens db ⊆ blacklisted_tokens (app SECRET_KEY req db).2)
      as [Hu Hb].
    { pose proof (app_effect req db) as Heff.
      destruct req as [email | delivery draws t email | now utcnow email code
                       | now token | token].
      - rewrite Heff. destruct (users db !! email); [split; reflexivity |].
        cbn [with_users users blacklisted_tokens]. rewrite dom_insert_L.
        split; [apply union_subseteq_r | reflexivity].
      - rewrite Heff. destruct (users db !! email); [| split; reflexivity].
        cbn [with_users users blacklisted_tokens]. rewrite dom_insert_L.
        split; [apply union_subseteq_r | reflexivity].
      - destruct Heff as [-> | [_ ->]]; [split; reflexivity |].
        cbn [with_users users blacklisted_tokens]. rewrite dom_insert_L.
        split; [apply union_subseteq_r | reflexivity].
      - rewrite Heff. split; reflexivity.
      - rewrite Heff. cbn [with_blacklist users blacklisted_tokens].
        split; [reflexivity | apply union_subseteq_r]. }
    split; etrans; eassumption.
Qed.

Lemma rows_ok_insert db email r :
  rows_ok db -> row_ok r -> rows_ok (with_users db (<[email := r]> (users db))).
Proof.
  intros Hdb Hr email' r'. cbn [with_users users].
  destruct (decide (email = email')) as [<- | Hne].
  - rewrite lookup_insert_eq. intros [= <-]. exact Hr.
  - rewrite lookup_insert_ne by assumption. apply Hdb.
Qed.

(** X21. The rows keep their shape: if every row is either without
    challenge or holds a code of six digits with its timestamp, this is
    still so after any sequence of requests.  In particular no reachable
    row has a code without timestamp. *)
Theorem X21_serve_rows_ok reqs db :
  rows_ok db -> rows_ok (serve SECRET_KEY reqs db).
Proof.
  revert db. induction reqs as [| req reqs IH]; intros db Hdb; cbn [serve];
    [exact Hdb |].
  apply IH. pose proof (app_effect req db) as Heff.
  destruct req as [email | delivery draws t email | now utcnow email code
                   | now token | token].
  - rewrite Heff. destruct (users db !! email); [exact Hdb |].
    apply rows_ok_insert; [exact Hdb | left; reflexivity].
  - rewrite Heff. destruct (users db !! email); [| exact Hdb].
    apply rows_ok_insert; [exact Hdb |]. right.
    exists (generate_otp draws 6), t. split; [reflexivity |].
    apply generate_otp_shape.
  - destruct Heff as [-> | [_ ->]]; [exact Hdb |].
    apply rows_ok_insert; [exact Hdb | left; reflexivity].
  - rewrite Heff. exact Hdb.
  - rewrite Heff. exact Hdb.
Qed.

End Tokens.

(** ** Further properties: the delivery by SMTP *)

Section Delivery.

Variable w : Smtp.world.
Variables to_email otp : string.

Let host := Smtp.getenv w "EMAIL_HOST".
Let port := Smtp.getenv w "EMAIL_PORT".
Let user := Smtp.getenv w "EMAIL_HOST_USER".
Let password := Smtp.getenv w "EMAIL_HOST_PASSWORD".
Let from_email := Smtp.getenv w "EMAIL_FROM".

Ltac smtp_cases :=
  unfold Smtp.send_email, Smtp.smtp_connection, Smtp.try_finally, Smtp.seq,
    Smtp.assign_server, Smtp.on_server, Smtp.log, Smtp.start, Smtp.otp_message,
    host, port, user, password, from_email in *;
  cbv zeta in *;
  try destruct (Smtp.SMTP w _ _) as [e1|] eqn:E1;
  try destruct (Smtp.starttls w) as [e2|] eqn:E2;
  try destruct (Smtp.login w _ _) as [e3|] eqn:E3;
  try destruct (Smtp.as_string w _) as [e4 | text] eqn:E4;
  try destruct (Smtp.sendmail w _ _ _) as [e5|] eqn:E5;
  try destruct (Smtp.quit w) as [e6|] eqn:E6;
  cbn in *.

(** X22. When [smtplib.SMTP(...)] raises, the [finally] clause reads the
    unassigned local [server]: the caller of [send_email] gets an
    UnboundLocalError in place of the connection error, and no other
    call is made, [quit] included. *)
Theorem X22_send_email_connection_error e :
  Smtp.SMTP w host port = Some e ->
  Smtp.send_email w to_email otp Smtp.start =
    (Some (Smtp.UnboundLocalError "server"),
     {| Smtp.server := false; Smtp.calls := [Smtp.Call_SMTP host port] |}).
Proof.
  intros Hc. unfold Smtp.send_email, Smtp.smtp_connection, Smtp.try_finally,
    Smtp.seq, Smtp.assign_server, Smtp.on_server, Smtp.log, Smtp.start,
    host, port in *.
  rewrite Hc. reflexivity.
Qed.

(** X23. Once the connection is made, [quit] is called exactly once and
    it is the last call, whatever raises in between; an exception of
    [quit] is the one the caller gets. *)
Theorem X23_send_email_quits :
  Smtp.SMTP w host port = None ->
  (exists l,
     Smtp.calls (Smtp.send_email w to_email otp Smtp.start).2 =
       Smtp.Call_SMTP host port :: l ++ [Smtp.Call_quit]
     /\ Smtp.Call_quit ∉ l)
  /\ forall e, Smtp.quit w = Some e ->
       (Smtp.send_email w to_email otp Smtp.start).1 = Some (Smtp.Exc e).
Proof.
  intros Hc. split.
  - smtp_cases; try discriminate Hc;
      first
        [ exists []; split; [reflexivity | apply not_elem_of_nil]
        | eexists [_]; split; [reflexivity |];
          intros Hin; repeat (apply elem_of_cons in Hin as [Hin | Hin];
                              [discriminate Hin |]);
          apply elem_of_nil in Hin; exact Hin
        | eexists [_; _]; split; [reflexivity |];
          intros Hin; repeat (apply elem_of_cons in Hin as [Hin | Hin];
                              [discriminate Hin |]);
          apply elem_of_nil in Hin; exact Hin
        | eexists [_; _; _]; split; [reflexivity |];
          intros Hin; repeat (apply elem_of_cons in Hin as [Hin | Hin];
                              [discriminate Hin |]);
          apply elem_of_nil in Hin; exact Hin ].
  - intros e Hq. smtp_cases; congruence.
Qed.

(** X24. [send_email] completes exactly when every step returns: the
    connection, [starttls], [login], the rendering of the message,
    [sendmail] and [quit]; the calls are then these five, in this order,
    and the message sent is the one for this code. *)
Theorem X24_send_email_completes :
  (Smtp.send_email w to_email otp Smtp.start).1 = None <->
  exists text,
    Smtp.SMTP w host port = None
    /\ Smtp.starttls w = None
    /\ Smtp.login w user password = None
    /\ Smtp.as_string w (Smtp.otp_message w to_email otp) = inr text
    /\ Smtp.sendmail w from_email to_email text = None
    /\ Smtp.quit w = None
    /\ Smtp.calls (Smtp.send_email w to_email otp Smtp.start).2 =
         [Smtp.Call_SMTP host port; Smtp.Call_starttls;
          Smtp.Call_login user password;
          Smtp.Call_sendmail from_email to_email text; Smtp.Call_quit].
Proof.
  split.
  - intros Hrun. smtp_cases; try discriminate Hrun.
    exists text. repeat split; try reflexivity; assumption.
  - intros (text' & Hc & Hs & Hl & Ha & Hm & Hq & _).
    smtp_cases; try discriminate; try reflexivity.
    all: injection Ha as ->; try rewrite E5; try reflexivity; congruence.
Qed.

(** X25. [sendmail] is called only after the connection, [starttls] and
    [login] have returned, and only with the sender of the environment,
    the recipient given and the rendering of the message for this
    code. *)
Theorem X25_send_email_sendmail_guarded f t m :
  Smtp.Call_sendmail f t m ∈
    Smtp.calls (Smtp.send_email w to_email otp Smtp.start).2 ->
  Smtp.SMTP w host port = None
  /\ Smtp.starttls w = None
  /\ Smtp.login w user password = None
  /\ f = from_email /\ t = to_email
  /\ Smtp.as_string w (Smtp.otp_message w to_email otp) = inr m.
Proof.
  intros Hin. smtp_cases;
    repeat (apply elem_of_cons in Hin as [Hin | Hin]; [try discriminate Hin |]);
    try (apply elem_of_nil in Hin; contradiction);
    injection Hin as -> -> ->; repeat split; reflexivity.
Qed.

End Delivery.

(** ** Further properties: the schema script *)


(** ** The further properties on concrete runs *)

(** X2: an email that never registered. *)
Lemma X2_witness :
  send_otp smtp_up draws1 1000 "b@x.com" db_registered =
    (Raise (HTTPException 400 "Email not allowed"), db_registered).
Proof.
  apply (X2_send_otp_unknown_email smtp_up db_registered draws1 1000 "b@x.com").
  vm_compute. reflexivity.
Defined.

(** X3: the code "470369" sent to [alice] at instant 1000. *)
Lemma X3_witness :
  send_otp smtp_up draws1 1000 alice db_registered =
    (Return [("message", PyStr "OTP sent")],
     with_users db_registered
       (<[alice := pending (generate_otp draws1 6) 1000]> (users db_registered))).
Proof.
  apply (X3_send_otp_sent smtp_up db_registered draws1 1000 alice no_challenge).
  - vm_compute. reflexivity.
  - reflexivity.
Defined.

(** X4: the code sent at 1000 redeemed at 1180, the delivery having failed. *)
Lemma X4_witness :
  exists token,
    verify_otp (J := ref_codec) default_key 1180 1180 alice (generate_otp draws1 6)
      (send_otp smtp_down draws1 1000 alice db_registered).2 =
      (Return (bearer token),
       with_users db_registered (<[alice := no_challenge]> (users db_registered))).
Proof.
  apply (X4_send_otp_then_verify_otp (J := ref_codec) default_key smtp_down
           db_registered draws1 1000 alice no_challenge 1180 1180).
  - vm_compute. reflexivity.
  - vm_compute. discriminate.
Defined.

(** X6: the code "470369" after the code "012345" has been issued. *)
Lemma X6_witness :
  (verify_otp (J := ref_codec) default_key 1100 1100 alice (generate_otp draws1 6)
     (send_otp smtp_up draws2 1050 alice
        (send_otp smtp_up draws1 1000 alice db_registered).2).2).1 =
    Raise (HTTPException 400 "Invalid OTP").
Proof.
  apply (X6_reissue_invalidates (J := ref_codec) default_key smtp_up smtp_up
           db_registered draws1 draws2 1000 1050 alice no_challenge 1100 1100).
  - vm_compute. reflexivity.
  - vm_compute. discriminate.
  - vm_compute. discriminate.
Defined.


(** X8: a second attempt, twenty seconds after the redemption. *)
Lemma X8_witness :
  verify_otp (J := ref_codec) default_key 1200 1200 alice "123456"
    (with_users db_pending (<[alice := no_challenge]> (users db_pending))) =
    (Raise TypeError_float_None,
     with_users db_pending (<[alice := no_challenge]> (users db_pending))).
Proof.
  apply (X8_verify_otp_single_use (J := ref_codec) default_key db_pending alice
           "123456" 1180 1180 (bearer alice_token)
           (with_users db_pending (<[alice := no_challenge]> (users db_pending)))
           "123456" 1200 1200).
  vm_compute. reflexivity.
Defined.


(** X11: an email that never registered. *)
Lemma X11_witness :
  verify_otp (J := ref_codec) default_key 1100 1100 "b@x.com" "123456" db_pending =
    (Raise (HTTPException 404 "OTP not found"), db_pending).
Proof.
  apply (X11_verify_otp_unknown_email (J := ref_codec) default_key db_pending
           "b@x.com" "123456" 1100 1100).
  vm_compute. reflexivity.
Defined.

(** X12: the token of [alice], twenty seconds after it was minted. *)
Lemma X12_witness :
  token_check (J := ref_codec) default_key 1200 alice_token db_empty =
    (Return [("message", PyStr "Token is valid"); ("email", PyStr alice)],
     db_empty).
Proof.
  apply (X12_token_check_valid (J := ref_codec) default_key db_empty 1200
           alice_token
           (<["exp" := PyInt (numeric_date (1180 + timedelta_minutes 30))]>
              {["sub" := PyStr alice]})
           (PyStr alice)).
  - vm_compute. intros Hin. discriminate Hin.
  - vm_compute. reflexivity.
  - vm_compute. reflexivity.
  - discriminate.
Defined.

(** X15: the session of [alice] from the challenge of [db_pending]. *)
Lemma X15_witness :
  exists token db',
    verify_otp (J := ref_codec) default_key 1180 1180 alice "123456" db_pending =
      (Return (bearer token), db')
    /\ (token ∉ blacklisted_tokens db_pending ->
        token_check (J := ref_codec) default_key 2979 token db' =
          (Return [("message", PyStr "Token is valid"); ("email", PyStr alice)],
           db'))
    /\ (token_check (J := ref_codec) default_key 2979 token (logout token db').2).1 =
         Raise (HTTPException 401 "Token has been revoked").
Proof.
  apply (X15_session (J := ref_codec) default_key db_pending alice "123456"
           1000 1180 1180 2979).
  - vm_compute. reflexivity.
  - vm_compute. discriminate.
  - vm_compute. reflexivity.
Defined.

(** X18: a timedelta of zero seconds. *)
Lemma X18_witness :
  create_access_token (J := ref_codec) default_key 1000 {["sub" := PyStr alice]}
    (Some 0%Q) =
  create_access_token (J := ref_codec) default_key 1000 {["sub" := PyStr alice]}
    None.
Proof.
  apply (X18_create_access_token_zero_delta (J := ref_codec) default_key 1000
           {["sub" := PyStr alice]} 0%Q).
  reflexivity.
Defined.

(** X21: the rows after [some_requests], served from the empty database. *)
Lemma X21_witness :
  rows_ok (serve (J := ref_codec) default_key some_requests db_empty).
Proof.
  apply (X21_serve_rows_ok (J := ref_codec) default_key some_requests db_empty).
  intros email r Hrow. vm_compute in Hrow. discriminate Hrow.
Defined.

(** X22: the connection is refused. *)
Lemma X22_witness :
  Smtp.send_email world_down alice "470369" Smtp.start =
    (Some (Smtp.UnboundLocalError "server"),
     {| Smtp.server := false;
        Smtp.calls := [Smtp.Call_SMTP (Smtp.getenv world_down "EMAIL_HOST")
                         (Smtp.getenv world_down "EMAIL_PORT")] |}).
Proof.
  apply (X22_send_email_connection_error world_down alice "470369"
           (SMTPException "Connection refused")).
  reflexivity.
Defined.

(** X23: the server accepts everything. *)
Lemma X23_witness :
  (exists l,
     Smtp.calls (Smtp.send_email world_up alice "470369" Smtp.start).2 =
       Smtp.Call_SMTP (Smtp.getenv world_up "EMAIL_HOST")
         (Smtp.getenv world_up "EMAIL_PORT") :: l ++ [Smtp.Call_quit]
     /\ Smtp.Call_quit ∉ l)
  /\ forall e, Smtp.quit world_up = Some e ->
       (Smtp.send_email world_up alice "470369" Smtp.start).1 = Some (Smtp.Exc e).
Proof.
  apply (X23_send_email_quits world_up alice "470369").
  reflexivity.
Defined.

(** X25: the mail that leaves for [alice]. *)
Lemma X25_witness :
  Smtp.SMTP world_up (Smtp.getenv world_up "EMAIL_HOST")
    (Smtp.getenv world_up "EMAIL_PORT") = None
  /\ Smtp.starttls world_up = None
  /\ Smtp.login world_up (Smtp.getenv world_up "EMAIL_HOST_USER")
       (Smtp.getenv world_up "EMAIL_HOST_PASSWORD") = None
  /\ Some "otp@x.com" = Smtp.getenv world_up "EMAIL_FROM"
  /\ alice = alice
  /\ Smtp.as_string world_up (Smtp.otp_message world_up alice "470369") =
       inr "Subject: Your OTP Code".
Proof.
  apply (X25_send_email_sendmail_guarded world_up alice "470369"
           (Some "otp@x.com") alice "Subject: Your OTP Code").
  vm_compute. do 3 (apply elem_of_cons; right). apply elem_of_cons. left.
  reflexivity.
Defined.
